(** * The Python ML service (python-service/app.py): its three Flask views

    A shallow embedding of [health_check], [convert_pdf] and
    [generate_embeddings].  The views are embedded as they are written:
    values that [request.get_json()] can hand to the view are Python values
    built from JSON, the [try]/[except] blocks are an exception monad, and
    the [logger] calls are collected in a log that is returned next to the
    response.  The libraries the view calls ([base64.b64decode], marker's
    [convert_single_pdf], Flask's JSON parsing) are collaborators: they are
    taken as they answer, a value or a raised exception. *)

From Stdlib Require Import ZArith NArith String Ascii List Bool Init.Byte Floats.SpecFloat.
From stdpp Require Import gmap strings list fin_maps.

Local Open Scope string_scope.
Local Open Scope list_scope.
Local Open Scope Z_scope.

(** ** Python values and exceptions *)

(** What [json.loads] builds, and what [jsonify] serialises: [None], a
    [bool], an [int], a [float], a [str], a [list] or a [dict] with [str]
    keys.  A [str] is a [string], one character per code point. *)
#[warnings="-register-all"]
Inductive pyval : Type :=
  | PyNone
  | PyBool (b : bool)
  | PyInt (n : Z)
  | PyFloat (x : spec_float)
  | PyStr (s : string)
  | PyList (xs : list pyval)
  | PyDict (d : gmap string pyval).

(** An instance of [Exception], what [except Exception] catches: its class
    and the text of [str(e)].  What is raised and is no [Exception]
    ([SystemExit], [KeyboardInterrupt]) is caught by neither [except] of
    the view and ends the call without a response; such a call has no run
    in this model, whose results are about the calls that end in a
    response or in an [Exception]. *)
Record exn : Type := Exception { exc_class : string; exc_str : string }.

(** The outcome of a call that may raise. *)
Inductive raises (A : Type) : Type :=
  | Returned (a : A)
  | Raised (e : exn).
Arguments Returned {A} a.
Arguments Raised {A} e.

(** [type(v).__name__] *)
Definition type_name (v : pyval) : string :=
  match v with
  | PyNone => "NoneType"
  | PyBool _ => "bool"
  | PyInt _ => "int"
  | PyFloat _ => "float"
  | PyStr _ => "str"
  | PyList _ => "list"
  | PyDict _ => "dict"
  end.

(** [bool(v)]: the truth value tested by [not data]. *)
Definition truthy (v : pyval) : bool :=
  match v with
  | PyNone => false
  | PyBool b => b
  | PyInt n => negb (n =? 0)
  | PyFloat (S754_zero _) => false
  | PyFloat _ => true
  | PyStr s => negb (Nat.eqb (String.length s) 0)
  | PyList xs => negb (Nat.eqb (List.length xs) 0)
  | PyDict d => negb (Nat.eqb (size d) 0)
  end.

(** [needle in hay] for two [str]: [needle] occurs as a substring. *)
Fixpoint str_contains (needle hay : string) : bool :=
  String.prefix needle hay
  || match hay with
     | EmptyString => false
     | String _ rest => str_contains needle rest
     end.

(** [k == x] for a [str] [k]: only an equal [str] is equal to it. *)
Definition str_eq_val (k : string) (x : pyval) : bool :=
  match x with
  | PyStr s => String.eqb k s
  | _ => false
  end.

(** The texts below are those of CPython 3.11 to 3.13; no result depends on
    their wording. *)
Definition TypeError (msg : string) : exn := Exception "TypeError" msg.
Definition KeyError (k : string) : exn := Exception "KeyError" ("'" +:+ k +:+ "'").
Definition AttributeError (msg : string) : exn := Exception "AttributeError" msg.

(** [k in v] for a [str] [k]: key membership in a [dict], element
    membership in a [list], substring in a [str], [TypeError] otherwise. *)
Definition py_in (k : string) (v : pyval) : raises bool :=
  match v with
  | PyDict d => Returned (bool_decide (is_Some (d !! k)))
  | PyList xs => Returned (existsb (str_eq_val k) xs)
  | PyStr s => Returned (str_contains k s)
  | _ => Raised (TypeError ("argument of type '" +:+ type_name v +:+ "' is not iterable"))
  end.

(** [v[k]] for a [str] [k]. *)
Definition py_getitem (v : pyval) (k : string) : raises pyval :=
  match v with
  | PyDict d =>
      match d !! k with
      | Some x => Returned x
      | None => Raised (KeyError k)
      end
  | PyList _ => Raised (TypeError "list indices must be integers or slices, not str")
  | PyStr _ => Raised (TypeError "string indices must be integers, not 'str'")
  | _ => Raised (TypeError ("'" +:+ type_name v +:+ "' object is not subscriptable"))
  end.

(** [v.get(k, dflt)] *)
Definition py_get (v : pyval) (k : string) (dflt : pyval) : raises pyval :=
  match v with
  | PyDict d => Returned (default dflt (d !! k))
  | _ => Raised (AttributeError ("'" +:+ type_name v +:+ "' object has no attribute 'get'"))
  end.

(** ** Responses and the log *)

(** What a view returns, [jsonify(body), status]. *)
Record Response : Type := mkResponse { body : pyval; status : Z }.

(** [jsonify({...})] of a dict literal, given as its items. *)
Definition jsonify (items : list (string * pyval)) : pyval :=
  PyDict (list_to_map items).

(** The four [logger] calls of [convert_pdf], each with the values its
    f-string formats. *)
Inductive log_message : Type :=
  | Base64_decode_error (e : exn)
  | Converting_PDF (filename : pyval) (nbytes : nat)
  | Conversion_successful (chars : nat) (pages : pyval)
  | PDF_conversion_error (e : exn).

Inductive log_record : Type :=
  | logger_info (msg : log_message)
  | logger_error (msg : log_message) (exc_info : bool).

(** ** Views: code that logs and may raise *)

(** A computation returns a value or raises, and leaves log records. *)
Definition py (A : Type) : Type := raises A * list log_record.

Definition ret {A} (a : A) : py A := (Returned a, []).
Definition call {A} (r : raises A) : py A := (r, []).
Definition log (r : log_record) : py unit := (Returned tt, [r]).

Definition bind {A B} (m : py A) (k : A -> py B) : py B :=
  match m with
  | (Returned a, l1) => let '(r, l2) := k a in (r, l1 ++ l2)
  | (Raised e, l1) => (Raised e, l1)
  end.

Declare Scope py_scope.
Delimit Scope py_scope with py.
Notation "x <- m ;; k" := (bind m (fun x => k))
  (at level 100, m at next level, right associativity) : py_scope.
Notation "m ;;; k" := (bind m (fun _ => k))
  (at level 100, right associativity) : py_scope.

(** [try: m except Exception as e: h e], for a view: the result is a
    response and the log, nothing is raised any more. *)
Definition try_except (m : py Response) (h : exn -> py Response) : py Response :=
  match m with
  | (Returned a, l1) => (Returned a, l1)
  | (Raised e, l1) => let '(r, l2) := h e in (r, l1 ++ l2)
  end.

(** ** The collaborators *)

(** The request of the current call, as the view reads it: the outcome of
    [request.get_json()], the parsed body or the exception Flask raises
    when the body cannot be parsed. *)
Record Request : Type := mkRequest { get_json : raises pyval }.

(** The libraries behind the view.  [model_list] is what
    [load_all_models()] returned when the module was loaded;
    [convert_single_pdf pdf_file model_list max_pages langs batch_multiplier]
    answers with [(markdown_text, images, metadata)] or raises; [images] is
    [None] or a dict of images by name. *)
Class Runtime : Type := {
  Models : Type;
  Image : Type;
  model_list : Models;
  b64decode : pyval -> raises (list byte);
  convert_single_pdf :
    list byte -> Models -> option nat -> option (list string) -> Z ->
    raises (string * option (gmap string Image) * gmap string pyval);
}.

(** [len(images) if images else 0] *)
Definition len_or_0 {Image : Type} (images : option (gmap string Image)) : Z :=
  match images with
  | Some d => if negb (Nat.eqb (size d) 0) then Z.of_nat (size d) else 0
  | None => 0
  end.

(** [metadata.get('pages', 0)] *)
Definition get_pages (metadata : gmap string pyval) : pyval :=
  default (PyInt 0) (metadata !! "pages").

Section Views.
Context `{rt : Runtime}.
Local Open Scope py_scope.

(** [GET /health] *)
Definition health_check (request : Request) : py Response :=
  ret (mkResponse
         (jsonify [("status", PyStr "healthy");
                   ("service", PyStr "python-ml-service");
                   ("version", PyStr "1.0.0")])
         200).

(** [not data or 'pdf_base64' not in data]: [or] does not evaluate its
    right operand when the left one is true. *)
Definition missing_pdf_base64 (data : pyval) : py bool :=
  if negb (truthy data) then ret true
  else present <- call (py_in "pdf_base64" data) ;; ret (negb present).

(** [POST /convert-pdf] *)
Definition convert_pdf (request : Request) : py Response :=
  try_except
    (data <- call (get_json request) ;;
     missing <- missing_pdf_base64 data ;;
     if (missing : bool) then
       ret (mkResponse
              (jsonify [("success", PyBool false);
                        ("error", PyStr "Missing pdf_base64 in request body")])
              400)
     else
       pdf_base64 <- call (py_getitem data "pdf_base64") ;;
       filename <- call (py_get data "filename" (PyStr "document.pdf")) ;;
       match b64decode pdf_base64 with
       | Raised e =>
           log (logger_error (Base64_decode_error e) false) ;;;
           ret (mkResponse
                  (jsonify [("success", PyBool false);
                            ("error", PyStr "Invalid base64 encoding")])
                  400)
       | Returned pdf_bytes =>
           log (logger_info (Converting_PDF filename (List.length pdf_bytes))) ;;;
           let pdf_file := pdf_bytes in
           result <- call (convert_single_pdf pdf_file model_list None None 2) ;;
           let '(markdown_text, images, metadata) := result in
           log (logger_info (Conversion_successful (String.length markdown_text)
                                                   (get_pages metadata))) ;;;
           ret (mkResponse
                  (jsonify [("success", PyBool true);
                            ("markdown", PyStr markdown_text);
                            ("metadata",
                             jsonify [("pages", get_pages metadata);
                                      ("chars", PyInt (Z.of_nat (String.length markdown_text)));
                                      ("images_extracted", PyInt (len_or_0 images))])])
                  200)
       end)
    (fun e =>
       log (logger_error (PDF_conversion_error e) true) ;;;
       ret (mkResponse
              (jsonify [("success", PyBool false);
                        ("error", PyStr ("PDF conversion failed: " +:+ exc_str e))])
              500)).

(** [POST /generate-embeddings] *)
Definition generate_embeddings (request : Request) : py Response :=
  ret (mkResponse
         (jsonify [("success", PyBool false);
                   ("error", PyStr "Not implemented yet - use OpenAI embeddings for now")])
         501).

End Views.

(** ** The routes and the server's log *)

(** The routes registered with [@app.route]; any other request is
    answered by Flask itself. *)
Definition url_map `{rt : Runtime} (method path : string)
  : option (Request -> py Response) :=
  if String.eqb path "/health" && String.eqb method "GET" then Some health_check
  else if String.eqb path "/convert-pdf" && String.eqb method "POST" then Some convert_pdf
  else if String.eqb path "/generate-embeddings" && String.eqb method "POST"
       then Some generate_embeddings
  else None.

(** One HTTP exchange: the method, the path and the request. *)
Definition exchange : Type := string * string * Request.

(** The server handles the exchanges one after the other; what persists
    from one to the next is the log.  The answer is [None] where no view of
    this module ran or where the view raised. *)
Definition handle `{rt : Runtime} (server_log : list log_record) (x : exchange)
  : option Response * list log_record :=
  let '(method, path, request) := x in
  match url_map method path with
  | Some view =>
      match view request with
      | (Returned resp, l) => (Some resp, server_log ++ l)
      | (Raised _, l) => (None, server_log ++ l)
      end
  | None => (None, server_log)
  end.

Fixpoint serve `{rt : Runtime} (server_log : list log_record) (xs : list exchange)
  : list (option Response) * list log_record :=
  match xs with
  | [] => ([], server_log)
  | x :: rest =>
      let '(r, server_log') := handle server_log x in
      let '(rs, final_log) := serve server_log' rest in
      (r :: rs, final_log)
  end.

(** ** Reading a response *)

(** [v[k]] of a JSON object, [None] when [v] has no member [k]. *)
Definition field (k : string) (v : pyval) : option pyval :=
  match v with
  | PyDict d => d !! k
  | _ => None
  end.

(** The response of a view that returned. *)
Definition response_of (r : py Response) : option Response :=
  match r with
  | (Returned resp, _) => Some resp
  | (Raised _, _) => None
  end.

(** The log records a view left. *)
Definition log_of {A} (r : py A) : list log_record := snd r.

(** ** Python's [base64.b64decode] *)

(** The value of a character of the base64 alphabet: [A] to [Z], [a] to
    [z], [0] to [9], [+] and [/]. *)
Definition b64_value (c : ascii) : option N :=
  let n := N_of_ascii c in
  if ((65 <=? n) && (n <=? 90))%N then Some (n - 65)%N
  else if ((97 <=? n) && (n <=? 122))%N then Some (n - 71)%N
  else if ((48 <=? n) && (n <=? 57))%N then Some (n + 4)%N
  else if (n =? 43)%N then Some 62%N
  else if (n =? 47)%N then Some 63%N
  else None.

Definition byte_of_N (n : N) : byte := byte_of_ascii (ascii_of_N n).

(** [binascii.a2b_base64(data)] as CPython runs it when [strict_mode] is
    off, which is how [b64decode] calls it when [validate] is not given: a
    character outside the alphabet is skipped; a [=] ends the input once
    the quad has two characters and the padding completes it, and is
    skipped otherwise; input that ends inside a quad is rejected.  The
    first of the two error texts is CPython's without the count it names. *)
Fixpoint a2b_base64 (data : list ascii) (quad_pos : nat) (leftchar : N) (pads : nat)
    (bin_data : list byte) : raises (list byte) :=
  match data with
  | [] =>
      if Nat.eqb quad_pos 0 then Returned bin_data
      else if Nat.eqb quad_pos 1 then
        Raised (Exception "binascii.Error"
                  "Invalid base64-encoded string: number of data characters cannot be 1 more than a multiple of 4")
      else Raised (Exception "binascii.Error" "Incorrect padding")
  | this_ch :: rest =>
      if Ascii.eqb this_ch "=" then
        if Nat.leb 2 quad_pos && Nat.leb 4 (quad_pos + S pads) then Returned bin_data
        else a2b_base64 rest quad_pos leftchar
               (if Nat.leb 2 quad_pos then S pads else pads) bin_data
      else
        match b64_value this_ch with
        | None => a2b_base64 rest quad_pos leftchar pads bin_data
        | Some v =>
            match quad_pos with
            | 0%nat => a2b_base64 rest 1 v 0 bin_data
            | 1%nat =>
                a2b_base64 rest 2 (N.land v 15) 0
                  (bin_data ++ [byte_of_N (N.lor (N.shiftl leftchar 2) (N.shiftr v 4))])
            | 2%nat =>
                a2b_base64 rest 3 (N.land v 3) 0
                  (bin_data ++ [byte_of_N (N.lor (N.shiftl leftchar 4) (N.shiftr v 2))])
            | _ =>
                a2b_base64 rest 0 0 0
                  (bin_data ++ [byte_of_N (N.lor (N.shiftl leftchar 6) v)])
            end
        end
  end.

(** [base64.b64decode(v)], as line 78 calls it: a [str] must be ASCII and
    is decoded without validation; a value that is no text is a
    [TypeError]. *)
Definition py_b64decode (v : pyval) : raises (list byte) :=
  match v with
  | PyStr s =>
      if forallb (fun c => (N_of_ascii c <? 128)%N) (list_ascii_of_string s)
      then a2b_base64 (list_ascii_of_string s) 0 0 0 []
      else Raised (Exception "ValueError"
                     "string argument should contain only ASCII characters")
  | _ =>
      Raised (TypeError ("argument should be a bytes-like object or ASCII string, not '"
                         +:+ type_name v +:+ "'"))
  end.

(** A text is base64 (RFC 4648, section 4): quads of characters of the
    alphabet, the last of which may end in one or two [=]. *)
Fixpoint well_formed_base64 (cs : list ascii) : bool :=
  match cs with
  | [] => true
  | a :: b :: c :: d :: rest =>
      let data x := bool_decide (is_Some (b64_value x)) in
      let pad x := Ascii.eqb x "=" in
      data a && data b
      && match rest with
         | [] => (data c && (data d || pad d)) || (pad c && pad d)
         | _ => data c && data d && well_formed_base64 rest
         end
  | _ => false
  end.

(** ** Runtimes to evaluate the views on *)

(** A decoder that accepts the text [QUJD] (the bytes [ABC]) and rejects
    everything else, as [b64decode] rejects a text of bad padding and a
    value that is no text. *)
Definition b64decode_QUJD (v : pyval) : raises (list byte) :=
  match v with
  | PyStr s =>
      if String.eqb s "QUJD" then Returned [x41; x42; x43]%byte
      else Raised (Exception "binascii.Error" "Incorrect padding")
  | _ => Raised (TypeError "argument should be a bytes-like object or ASCII string")
  end.

(** A runtime whose pipeline answers every document with [answer]. *)
Definition runtime_answering
    (answer : raises (string * option (gmap string unit) * gmap string pyval))
  : Runtime :=
  {| Models := unit;
     Image := unit;
     model_list := tt;
     b64decode := b64decode_QUJD;
     convert_single_pdf := fun _ _ _ _ _ => answer |}.

(** A runtime that decodes as Python does and whose pipeline answers
    every document with [answer]. *)
Definition python_runtime
    (answer : raises (string * option (gmap string unit) * gmap string pyval))
  : Runtime :=
  {| Models := unit;
     Image := unit;
     model_list := tt;
     b64decode := py_b64decode;
     convert_single_pdf := fun _ _ _ _ _ => answer |}.

(** The request with body [{"pdf_base64": "QUJD"}]. *)
Definition request_QUJD : Request :=
  mkRequest (Returned (PyDict {[ "pdf_base64" := PyStr "QUJD" ]})).

(** The pipeline answers of the evaluations below: a page of markdown
    with one image, where the pipeline's own metadata reports a character
    count that is not the length of the text; a failure. *)
Definition answer_one_page
  : raises (string * option (gmap string unit) * gmap string pyval) :=
  Returned ("# A", Some {[ "0_image_0.png" := tt ]},
            {[ "pages" := PyInt 1; "chars" := PyInt 999 ]}).

Definition answer_failure
  : raises (string * option (gmap string unit) * gmap string pyval) :=
  Raised (Exception "RuntimeError" "CUDA out of memory").

(** ** Properties of a response *)

(** A JSON object body has no member [k].  A body that is no object has
    no member at all. *)
Definition lacks_field (k : string) (data : pyval) : Prop :=
  field k data = None.

(** The response to a body without the required member. *)
Definition missing_field_response : Response :=
  mkResponse
    (jsonify [("success", PyBool false);
              ("error", PyStr "Missing pdf_base64 in request body")])
    400.

(** The body of a successful conversion whose [metadata] holds the image
    count [count] as the member [images_key]. *)
Definition success_shape (images_key : string) (count : Z) (resp : Response) : Prop :=
  exists (markdown pages chars : pyval),
    resp = mkResponse
             (jsonify [("success", PyBool true);
                       ("markdown", markdown);
                       ("metadata",
                        jsonify [("pages", pages);
                                 ("chars", chars);
                                 (images_key, PyInt count)])])
             200.

(** The size of the image collection, 0 when there is none. *)
Definition image_count {Image : Type} (images : option (gmap string Image)) : Z :=
  match images with
  | Some d => Z.of_nat (size d)
  | None => 0
  end.



(** The log record without the file name it names. *)
Definition erase_filename (r : log_record) : log_record :=
  match r with
  | logger_info (Converting_PDF _ nbytes) => logger_info (Converting_PDF PyNone nbytes)
  | _ => r
  end.

(** The response of the inner [except], to a value the decoder rejects. *)
Definition invalid_base64_response : Response :=
  mkResponse
    (jsonify [("success", PyBool false);
              ("error", PyStr "Invalid base64 encoding")])
    400.

(** The response of the outer [except], to the exception [e]. *)
Definition conversion_failed_response (e : exn) : Response :=
  mkResponse
    (jsonify [("success", PyBool false);
              ("error", PyStr ("PDF conversion failed: " +:+ exc_str e))])
    500.

(** The response of lines 104 to 112, to what the pipeline returned. *)
Definition converted_response {Image : Type} (markdown_text : string)
    (images : option (gmap string Image)) (metadata : gmap string pyval) : Response :=
  mkResponse
    (jsonify [("success", PyBool true);
              ("markdown", PyStr markdown_text);
              ("metadata",
               jsonify [("pages", get_pages metadata);
                        ("chars", PyInt (Z.of_nat (String.length markdown_text)));
                        ("images_extracted", PyInt (len_or_0 images))])])
    200.

(** ** The module's start-up *)

(** The three [logger.info] calls outside the views: lines 28, 30 and
    149. *)
Inductive startup_message : Type :=
  | Loading_models
  | Models_loaded
  | Starting_service (port : Z).

(** The arguments of [app.run]. *)
Record app_run : Type := mk_app_run { host : string; port : Z; debug : bool }.

(** [int(os.getenv('PORT', 5000))]: the number 5000 when the variable is
    not set, else what [int] makes of its text or the [ValueError] it
    raises; [int_of_str] is Python's [int] on a [str]. *)
Definition port_of_environ (int_of_str : string -> raises Z)
    (environ : gmap string string) : raises Z :=
  match environ !! "PORT" with
  | Some text => int_of_str text
  | None => Returned 5000
  end.

(** [os.getenv('FLASK_ENV') == 'development'] *)
Definition debug_of_environ (environ : gmap string string) : bool :=
  bool_decide (environ !! "FLASK_ENV" = Some "development").

(** The module's top-level code, run with [__name__] being [name]: the
    models are loaded, then, when the module is the script, the service is
    started.  The result is the loaded models with the call of [app.run]
    the module made, if it made one. *)
Definition run_module {Models : Type} (load_all_models : raises Models)
    (int_of_str : string -> raises Z) (environ : gmap string string) (name : string)
  : raises (Models * option app_run) * list startup_message :=
  match load_all_models with
  | Raised e => (Raised e, [Loading_models])
  | Returned model_list =>
      if String.eqb name "__main__" then
        match port_of_environ int_of_str environ with
        | Raised e => (Raised e, [Loading_models; Models_loaded])
        | Returned port =>
            let debug := debug_of_environ environ in
            (Returned (model_list, Some (mk_app_run "0.0.0.0" port debug)),
             [Loading_models; Models_loaded; Starting_service port])
        end
      else (Returned (model_list, None), [Loading_models; Models_loaded])
  end.

(** An [int] for the evaluations: it reads [8080] and rejects every other
    text, as [int] rejects a text that is no number. *)
Definition int_of_str_8080 (text : string) : raises Z :=
  if String.eqb text "8080" then Returned 8080
  else Raised (Exception "ValueError"
                 ("invalid literal for int() with base 10: '" +:+ text +:+ "'")).

(** ** The paths through [convert_pdf] *)

Arguments jsonify : simpl never.

Section Paths.
Context `{rt : Runtime}.

Lemma missing_pdf_base64_dict (d : gmap string pyval) :
  missing_pdf_base64 (PyDict d)
  = ret (negb (bool_decide (is_Some (d !! "pdf_base64")))).
Proof.
  unfold missing_pdf_base64. cbn [truthy].
  destruct (Nat.eqb (size d) 0) eqn:Hsz; cbn; [| reflexivity].
  apply Nat.eqb_eq, map_size_empty_inv in Hsz. subst d.
  rewrite lookup_empty. rewrite bool_decide_eq_false_2; [reflexivity |].
  intros [x Hx]. discriminate Hx.
Qed.

Lemma missing_pdf_base64_falsy (data : pyval) :
  truthy data = false -> missing_pdf_base64 data = ret true.
Proof. intros Hf. unfold missing_pdf_base64. rewrite Hf. reflexivity. Qed.

(** Flask could not parse the body: the outer [except] answers. *)
Lemma convert_pdf_get_json_raised (request : Request) (e : exn) :
  get_json request = Raised e ->
  convert_pdf request
  = (Returned (mkResponse
                 (jsonify [("success", PyBool false);
                           ("error", PyStr ("PDF conversion failed: " +:+ exc_str e))])
                 500),
     [logger_error (PDF_conversion_error e) true]).
Proof. intros Hj. unfold convert_pdf. rewrite Hj. reflexivity. Qed.

(** The guard of line 67 holds: the first 400. *)
Lemma convert_pdf_missing (request : Request) (data : pyval) :
  get_json request = Returned data ->
  missing_pdf_base64 data = ret true ->
  convert_pdf request
  = (Returned (mkResponse
                 (jsonify [("success", PyBool false);
                           ("error", PyStr "Missing pdf_base64 in request body")])
                 400),
     []).
Proof.
  intros Hj Hm. unfold convert_pdf. rewrite Hj. cbn. rewrite Hm. reflexivity.
Qed.

(** A body that is an object with the member [pdf_base64] passes the
    guard, and the view goes on to the decoder. *)
Ltac pass_guard Hj Hd :=
  unfold convert_pdf; rewrite Hj; cbn [call bind];
  rewrite missing_pdf_base64_dict, Hd;
  rewrite bool_decide_eq_true_2 by eauto;
  cbn; rewrite Hd; cbn.

(** The decoder raised: the inner [except] answers with the second 400. *)
Lemma convert_pdf_decode_raised
    (request : Request) (d : gmap string pyval) (v : pyval) (e : exn) :
  get_json request = Returned (PyDict d) ->
  d !! "pdf_base64" = Some v ->
  b64decode v = Raised e ->
  convert_pdf request
  = (Returned (mkResponse
                 (jsonify [("success", PyBool false);
                           ("error", PyStr "Invalid base64 encoding")])
                 400),
     [logger_error (Base64_decode_error e) false]).
Proof. intros Hj Hd Hb. pass_guard Hj Hd. rewrite Hb. reflexivity. Qed.

(** The pipeline raised: the outer [except] answers with the 500. *)
Lemma convert_pdf_pipeline_raised
    (request : Request) (d : gmap string pyval) (v : pyval)
    (pdf_bytes : list byte) (e : exn) :
  get_json request = Returned (PyDict d) ->
  d !! "pdf_base64" = Some v ->
  b64decode v = Returned pdf_bytes ->
  convert_single_pdf pdf_bytes model_list None None 2 = Raised e ->
  convert_pdf request
  = (Returned (mkResponse
                 (jsonify [("success", PyBool false);
                           ("error", PyStr ("PDF conversion failed: " +:+ exc_str e))])
                 500),
     [logger_info (Converting_PDF (default (PyStr "document.pdf") (d !! "filename"))
                                  (List.length pdf_bytes));
      logger_error (PDF_conversion_error e) true]).
Proof.
  intros Hj Hd Hb Hp. pass_guard Hj Hd. rewrite Hb. cbn. rewrite Hp. reflexivity.
Qed.

(** The pipeline returned: the 200. *)
Lemma convert_pdf_converted
    (request : Request) (d : gmap string pyval) (v : pyval) (pdf_bytes : list byte)
    (markdown_text : string) (images : option (gmap string Image))
    (metadata : gmap string pyval) :
  get_json request = Returned (PyDict d) ->
  d !! "pdf_base64" = Some v ->
  b64decode v = Returned pdf_bytes ->
  convert_single_pdf pdf_bytes model_list None None 2
  = Returned (markdown_text, images, metadata) ->
  convert_pdf request
  = (Returned (mkResponse
                 (jsonify [("success", PyBool true);
                           ("markdown", PyStr markdown_text);
                           ("metadata",
                            jsonify [("pages", get_pages metadata);
                                     ("chars", PyInt (Z.of_nat (String.length markdown_text)));
                                     ("images_extracted", PyInt (len_or_0 images))])])
                 200),
     [logger_info (Converting_PDF (default (PyStr "document.pdf") (d !! "filename"))
                                  (List.length pdf_bytes));
      logger_info (Conversion_successful (String.length markdown_text)
                                         (get_pages metadata))]).
Proof.
  intros Hj Hd Hb Hp. pass_guard Hj Hd. rewrite Hb. cbn. rewrite Hp. reflexivity.
Qed.

End Paths.

Section Inversion.
Context `{rt : Runtime}.

(** A body that is no object never reaches the decoder: the guard
    answers 400, or [in] or the subscript raises and the outer [except]
    answers 500. *)
Lemma convert_pdf_not_object (request : Request) (data : pyval) :
  get_json request = Returned data ->
  (forall d, data <> PyDict d) ->
  exists resp logs,
    convert_pdf request = (Returned resp, logs)
    /\ (status resp = 400 \/ status resp = 500).
Proof.
  intros Hj Hnd. unfold convert_pdf. rewrite Hj. cbn [call bind].
  unfold missing_pdf_base64.
  destruct data as [| b | n | x | s | xs | d]; cbn [truthy];
    try (exfalso; eapply Hnd; reflexivity).
  - cbn; eauto.
  - destruct b; cbn; eauto.
  - destruct (n =? 0); cbn; eauto.
  - destruct x; cbn; eauto.
  - destruct (Nat.eqb (String.length s) 0); cbn; [eauto |].
    destruct (str_contains "pdf_base64" s); cbn; eauto.
  - destruct (Nat.eqb (List.length xs) 0); cbn; [eauto |].
    destruct (existsb (str_eq_val "pdf_base64") xs); cbn; eauto.
Qed.

(** A 200 is only reached along the path of [convert_pdf_converted]. *)
Lemma convert_pdf_200_inv (request : Request) (resp : Response) (logs : list log_record) :
  convert_pdf request = (Returned resp, logs) ->
  status resp = 200 ->
  exists d v pdf_bytes markdown_text images metadata,
    get_json request = Returned (PyDict d)
    /\ d !! "pdf_base64" = Some v
    /\ b64decode v = Returned pdf_bytes
    /\ convert_single_pdf pdf_bytes model_list None None 2
       = Returned (markdown_text, images, metadata).
Proof.
  intros Hrun Hst.
  destruct (get_json request) as [data | e] eqn:Hj.
  2:{ rewrite (convert_pdf_get_json_raised _ _ Hj) in Hrun.
      injection Hrun as <- _. discriminate Hst. }
  assert (Hobj : (exists d, data = PyDict d) \/ (forall d, data <> PyDict d)).
  { destruct data; try (right; discriminate). left; eauto. }
  destruct Hobj as [[d ->] | Hnd].
  2:{ destruct (convert_pdf_not_object _ _ Hj Hnd) as (r & l & Hr & Hs).
      rewrite Hr in Hrun. injection Hrun as <- _.
      destruct Hs as [Hs | Hs]; rewrite Hs in Hst; discriminate Hst. }
  destruct (d !! "pdf_base64") as [v |] eqn:Hd.
  2:{ rewrite (convert_pdf_missing _ _ Hj) in Hrun.
      - injection Hrun as <- _. discriminate Hst.
      - rewrite missing_pdf_base64_dict, Hd.
        rewrite bool_decide_eq_false_2; [reflexivity |].
        intros [x Hx]; discriminate Hx. }
  destruct (b64decode v) as [pdf_bytes | e] eqn:Hb.
  2:{ rewrite (convert_pdf_decode_raised _ _ _ _ Hj Hd Hb) in Hrun.
      injection Hrun as <- _. discriminate Hst. }
  destruct (convert_single_pdf pdf_bytes model_list None None 2)
    as [[[markdown_text images] metadata] | e] eqn:Hp.
  2:{ rewrite (convert_pdf_pipeline_raised _ _ _ _ _ Hj Hd Hb Hp) in Hrun.
      injection Hrun as <- _. discriminate Hst. }
  exists d, v, pdf_bytes, markdown_text, images, metadata. auto.
Qed.

End Inversion.

(** ** Texts *)

Lemma prefix_append (p s : string) : String.prefix p (p +:+ s) = true.
Proof.
  induction p as [| a p IH].
  - destruct s; reflexivity.
  - change (String a p +:+ s) with (String a (p +:+ s)). cbn [String.prefix].
    destruct (Ascii.ascii_dec a a) as [_ | Hne]; [exact IH | contradiction].
Qed.

Lemma prefix_self (s : string) : String.prefix s s = true.
Proof.
  induction s as [| a s IH]; cbn; [reflexivity |].
  destruct (Ascii.ascii_dec a a) as [_ | Hne]; [exact IH | contradiction].
Qed.

Lemma str_contains_self (s : string) : str_contains s s = true.
Proof. destruct s; cbn [str_contains]; rewrite prefix_self; reflexivity. Qed.

(** A text occurs in every text that ends with it. *)
Lemma str_contains_append (p s : string) : str_contains s (p +:+ s) = true.
Proof.
  induction p as [| a p IH].
  - apply str_contains_self.
  - change (String a p +:+ s) with (String a (p +:+ s)).
    cbn [str_contains]. rewrite IH. apply orb_true_r.
Qed.

(** ** The server *)

Lemma serve_app `{rt : Runtime} (xs ys : list exchange) (server_log : list log_record) :
  serve server_log (xs ++ ys)
  = (fst (serve server_log xs) ++ fst (serve (snd (serve server_log xs)) ys),
     snd (serve (snd (serve server_log xs)) ys)).
Proof.
  revert server_log. induction xs as [| x xs IH]; intros server_log; cbn [app serve].
  - cbn [fst snd app]. destruct (serve server_log ys); reflexivity.
  - destruct (handle server_log x) as [r server_log'].
    rewrite IH.
    destruct (serve server_log' xs) as [rs mid_log]. cbn [fst snd].
    destruct (serve mid_log ys); reflexivity.
Qed.

(** ** The claims *)

(** C1: for every successful conversion response of POST /convert-pdf, the
    member [chars] of [metadata] is the length of the [markdown] text of
    the same response; it is computed from that text, whatever the
    pipeline's own metadata reports. *)
Theorem convert_pdf_chars_is_markdown_length `{rt : Runtime}
    (request : Request) (resp : Response) (logs : list log_record) :
  convert_pdf request = (Returned resp, logs) ->
  status resp = 200 ->
  exists (markdown_text : string) (response_metadata : pyval),
    field "markdown" (body resp) = Some (PyStr markdown_text)
    /\ field "metadata" (body resp) = Some response_metadata
    /\ field "chars" response_metadata
       = Some (PyInt (Z.of_nat (String.length markdown_text))).
Proof.
  intros Hrun Hst.
  destruct (convert_pdf_200_inv _ _ _ Hrun Hst)
    as (d & v & pdf_bytes & markdown_text & images & metadata & Hj & Hd & Hb & Hp).
  rewrite (convert_pdf_converted _ _ _ _ _ _ _ Hj Hd Hb Hp) in Hrun.
  injection Hrun as <- _.
  exists markdown_text. eexists. cbn [body].
  split; [reflexivity |]. split; reflexivity.
Qed.

(** The pipeline reports 999 characters for a text of 3: the response
    says 3. *)
Lemma convert_pdf_chars_is_markdown_length_witness :
  exists resp logs,
    @convert_pdf (runtime_answering answer_one_page) request_QUJD = (Returned resp, logs)
    /\ status resp = 200
    /\ exists (markdown_text : string) (response_metadata : pyval),
         field "markdown" (body resp) = Some (PyStr markdown_text)
         /\ field "metadata" (body resp) = Some response_metadata
         /\ field "chars" response_metadata
            = Some (PyInt (Z.of_nat (String.length markdown_text))).
Proof.
  eexists _, _. split; [reflexivity |]. split; [reflexivity |].
  eapply (@convert_pdf_chars_is_markdown_length
            (runtime_answering answer_one_page) request_QUJD);
    reflexivity.
Defined.

(** C2, as the specification states it, fails: a body that lacks the
    member [pdfBase64] is not always answered with the 400 of the missing
    field.  The view looks for the member [pdf_base64]: the object
    [{"pdf_base64": "QUJD"}] has no member [pdfBase64] and is converted
    (200); and the body [5], which has no member at all, makes [in] raise,
    which the outer [except] answers with 500. *)
Lemma convert_pdf_missing_pdfBase64_counterexample :
  (lacks_field "pdfBase64" (PyDict {[ "pdf_base64" := PyStr "QUJD" ]})
   /\ status <$> response_of (@convert_pdf (runtime_answering answer_one_page) request_QUJD)
      = Some 200)
  /\ (lacks_field "pdfBase64" (PyInt 5)
      /\ lacks_field "pdf_base64" (PyInt 5)
      /\ response_of (@convert_pdf (runtime_answering answer_one_page)
                                   (mkRequest (Returned (PyInt 5))))
         = Some (mkResponse
                   (jsonify [("success", PyBool false);
                             ("error", PyStr "PDF conversion failed: argument of type 'int' is not iterable")])
                   500)).
Proof. repeat split; reflexivity. Qed.

(** C2, amended: for every POST /convert-pdf request whose JSON body is an
    object without the member [pdf_base64] (the empty object included), or
    is a value Python takes for false ([null], [false], [0], the empty
    text, the empty array), the response is HTTP 400 with body
    [{"success": false, "error": "Missing pdf_base64 in request body"}],
    and nothing is logged. *)
Theorem convert_pdf_missing_pdf_base64 `{rt : Runtime} (request : Request) (data : pyval) :
  get_json request = Returned data ->
  (exists d, data = PyDict d /\ lacks_field "pdf_base64" data) \/ truthy data = false ->
  convert_pdf request = (Returned missing_field_response, []).
Proof.
  intros Hj [(d & -> & Hd) | Hf]; apply (convert_pdf_missing _ _ Hj).
  - rewrite missing_pdf_base64_dict. unfold lacks_field, field in Hd. rewrite Hd.
    rewrite bool_decide_eq_false_2; [reflexivity |].
    intros [x Hx]; discriminate Hx.
  - apply missing_pdf_base64_falsy, Hf.
Qed.

(** The body [{}], and the body [{"pdfBase64": "QUJD"}]. *)
Lemma convert_pdf_missing_pdf_base64_witness :
  @convert_pdf (runtime_answering answer_one_page) (mkRequest (Returned (PyDict ∅)))
  = (Returned missing_field_response, [])
  /\ @convert_pdf (runtime_answering answer_one_page)
                  (mkRequest (Returned (PyDict {[ "pdfBase64" := PyStr "QUJD" ]})))
     = (Returned missing_field_response, []).
Proof.
  split.
  - apply (@convert_pdf_missing_pdf_base64 (runtime_answering answer_one_page)
             (mkRequest (Returned (PyDict ∅))) (PyDict ∅)); [reflexivity |].
    left. exists ∅. split; reflexivity.
  - apply (@convert_pdf_missing_pdf_base64 (runtime_answering answer_one_page)
             (mkRequest (Returned (PyDict {[ "pdfBase64" := PyStr "QUJD" ]})))
             (PyDict {[ "pdfBase64" := PyStr "QUJD" ]})); [reflexivity |].
    left. eexists. split; reflexivity.
Defined.

(** C3, as the specification states it, fails: a value that is not valid
    base64 is not always answered with 400.  Line 78 decodes without
    validation, so [b64decode] skips the characters outside the alphabet:
    the text [QUJD!!] is no base64 and is decoded to the bytes [ABC], which
    go to the pipeline.  Whatever the pipeline does with them, the answer
    is not a 400; for the page of markdown it is a 200. *)
Lemma convert_pdf_not_valid_base64_counterexample :
  well_formed_base64 (list_ascii_of_string "QUJD!!") = false
  /\ py_b64decode (PyStr "QUJD!!") = Returned [x41; x42; x43]%byte
  /\ (forall answer,
        status <$> response_of
                     (@convert_pdf (python_runtime answer)
                        (mkRequest (Returned (PyDict {[ "pdf_base64" := PyStr "QUJD!!" ]}))))
        <> Some 400)
  /\ status <$> response_of
                  (@convert_pdf (python_runtime answer_one_page)
                     (mkRequest (Returned (PyDict {[ "pdf_base64" := PyStr "QUJD!!" ]}))))
     = Some 200.
Proof.
  split; [reflexivity |]. split; [reflexivity |]. split; [| reflexivity].
  intros [[[markdown_text images] metadata] | e].
  - rewrite (@convert_pdf_converted (python_runtime (Returned (markdown_text, images, metadata)))
               (mkRequest (Returned (PyDict {[ "pdf_base64" := PyStr "QUJD!!" ]})))
               {[ "pdf_base64" := PyStr "QUJD!!" ]} (PyStr "QUJD!!") [x41; x42; x43]%byte
               markdown_text images metadata) by reflexivity.
    cbn [response_of fmap option_fmap option_map status]. discriminate.
  - rewrite (@convert_pdf_pipeline_raised (python_runtime (Raised e))
               (mkRequest (Returned (PyDict {[ "pdf_base64" := PyStr "QUJD!!" ]})))
               {[ "pdf_base64" := PyStr "QUJD!!" ]} (PyStr "QUJD!!") [x41; x42; x43]%byte e)
      by reflexivity.
    cbn [response_of fmap option_fmap option_map status]. discriminate.
Qed.

(** C3, amended: for every POST /convert-pdf request whose body is an
    object whose [pdf_base64] value [base64.b64decode] rejects, the
    response is HTTP 400 with [success: false] and the fixed text [Invalid
    base64 encoding]; the text of the exception is in the log record only,
    so two rejections with different exceptions are answered alike. *)
Theorem convert_pdf_invalid_base64 `{rt : Runtime}
    (request : Request) (d : gmap string pyval) (v : pyval) (e : exn) :
  get_json request = Returned (PyDict d) ->
  d !! "pdf_base64" = Some v ->
  b64decode v = Raised e ->
  convert_pdf request
  = (Returned (mkResponse
                 (jsonify [("success", PyBool false);
                           ("error", PyStr "Invalid base64 encoding")])
                 400),
     [logger_error (Base64_decode_error e) false]).
Proof. apply convert_pdf_decode_raised. Qed.

(** The body [{"pdf_base64": "not-valid-base64!!"}], decoded as Python
    does: fourteen characters of the alphabet are left, which end inside a
    quad. *)
Lemma convert_pdf_invalid_base64_witness :
  py_b64decode (PyStr "not-valid-base64!!")
  = Raised (Exception "binascii.Error" "Incorrect padding")
  /\ @convert_pdf (python_runtime answer_one_page)
       (mkRequest (Returned (PyDict {[ "pdf_base64" := PyStr "not-valid-base64!!" ]})))
     = (Returned (mkResponse
                    (jsonify [("success", PyBool false);
                              ("error", PyStr "Invalid base64 encoding")])
                    400),
        [logger_error (Base64_decode_error (Exception "binascii.Error" "Incorrect padding"))
                      false]).
Proof.
  split; [reflexivity |].
  apply (@convert_pdf_invalid_base64 (python_runtime answer_one_page)
           (mkRequest (Returned (PyDict {[ "pdf_base64" := PyStr "not-valid-base64!!" ]})))
           {[ "pdf_base64" := PyStr "not-valid-base64!!" ]}
           (PyStr "not-valid-base64!!"));
    reflexivity.
Defined.

(** C4: for every POST /convert-pdf request in which the pipeline raises,
    the response is HTTP 500 with [success: false] and an error text that
    is the prefix [PDF conversion failed: ] followed by the text of the
    exception, which it therefore contains; the body has these two members
    only, no markdown and no metadata. *)
Theorem convert_pdf_pipeline_failure `{rt : Runtime}
    (request : Request) (d : gmap string pyval) (v : pyval)
    (pdf_bytes : list byte) (e : exn) :
  get_json request = Returned (PyDict d) ->
  d !! "pdf_base64" = Some v ->
  b64decode v = Returned pdf_bytes ->
  convert_single_pdf pdf_bytes model_list None None 2 = Raised e ->
  exists error : string,
    response_of (convert_pdf request)
    = Some (mkResponse (jsonify [("success", PyBool false); ("error", PyStr error)]) 500)
    /\ error = "PDF conversion failed: " +:+ exc_str e
    /\ str_contains (exc_str e) error = true
    /\ field "markdown" (jsonify [("success", PyBool false); ("error", PyStr error)]) = None
    /\ field "metadata" (jsonify [("success", PyBool false); ("error", PyStr error)]) = None.
Proof.
  intros Hj Hd Hb Hp.
  rewrite (convert_pdf_pipeline_raised _ _ _ _ _ Hj Hd Hb Hp).
  eexists. split; [reflexivity |]. split; [reflexivity |].
  split; [apply str_contains_append |]. split; reflexivity.
Qed.

(** The pipeline runs out of memory. *)
Lemma convert_pdf_pipeline_failure_witness :
  exists error : string,
    response_of (@convert_pdf (runtime_answering answer_failure) request_QUJD)
    = Some (mkResponse (jsonify [("success", PyBool false); ("error", PyStr error)]) 500)
    /\ error = "PDF conversion failed: " +:+ "CUDA out of memory"
    /\ str_contains "CUDA out of memory" error = true
    /\ field "markdown" (jsonify [("success", PyBool false); ("error", PyStr error)]) = None
    /\ field "metadata" (jsonify [("success", PyBool false); ("error", PyStr error)]) = None.
Proof.
  apply (@convert_pdf_pipeline_failure (runtime_answering answer_failure) request_QUJD
           {[ "pdf_base64" := PyStr "QUJD" ]} (PyStr "QUJD") [x41; x42; x43]%byte
           (Exception "RuntimeError" "CUDA out of memory"));
    reflexivity.
Defined.

Lemma len_or_0_image_count {Image : Type} (images : option (gmap string Image)) :
  len_or_0 images = image_count images.
Proof.
  destruct images as [d |]; cbn; [| reflexivity].
  destruct (Nat.eqb (size d) 0) eqn:Hsz; cbn; [| reflexivity].
  apply Nat.eqb_eq in Hsz. rewrite Hsz. reflexivity.
Qed.

(** C5, as the specification states it, fails: the image count of a
    successful response is not a member [imagesExtracted] of [metadata].
    For one page with one image the response's [metadata] has no such
    member; the count is its member [images_extracted]. *)
Lemma convert_pdf_imagesExtracted_counterexample :
  exists resp response_metadata,
    response_of (@convert_pdf (runtime_answering answer_one_page) request_QUJD) = Some resp
    /\ status resp = 200
    /\ field "metadata" (body resp) = Some response_metadata
    /\ field "imagesExtracted" response_metadata = None
    /\ field "images_extracted" response_metadata = Some (PyInt 1)
    /\ ~ success_shape "imagesExtracted" 1 resp.
Proof.
  eexists _, _. split; [reflexivity |]. split; [reflexivity |].
  split; [reflexivity |]. split; [reflexivity |]. split; [reflexivity |].
  intros (markdown & pages & chars & Heq).
  apply (f_equal (fun r => field "metadata" (body r) ≫= field "images_extracted")) in Heq.
  vm_compute in Heq. discriminate Heq.
Qed.

(** C5, amended: for every successful conversion the response body has the
    shape [{success: true, markdown, metadata: {pages, chars,
    images_extracted}}], where [images_extracted] is the size of the image
    collection the pipeline returned, or 0 if there is none. *)
Theorem convert_pdf_success_shape `{rt : Runtime}
    (request : Request) (resp : Response) (logs : list log_record) :
  convert_pdf request = (Returned resp, logs) ->
  status resp = 200 ->
  exists d v pdf_bytes markdown_text images metadata,
    get_json request = Returned (PyDict d)
    /\ d !! "pdf_base64" = Some v
    /\ b64decode v = Returned pdf_bytes
    /\ convert_single_pdf pdf_bytes model_list None None 2
       = Returned (markdown_text, images, metadata)
    /\ success_shape "images_extracted" (image_count images) resp.
Proof.
  intros Hrun Hst.
  destruct (convert_pdf_200_inv _ _ _ Hrun Hst)
    as (d & v & pdf_bytes & markdown_text & images & metadata & Hj & Hd & Hb & Hp).
  exists d, v, pdf_bytes, markdown_text, images, metadata.
  repeat (split; [assumption |]).
  rewrite (convert_pdf_converted _ _ _ _ _ _ _ Hj Hd Hb Hp) in Hrun.
  injection Hrun as <- _.
  rewrite <- len_or_0_image_count. unfold success_shape. eauto.
Qed.

(** One page with one image. *)
Lemma convert_pdf_success_shape_witness :
  exists resp logs,
    @convert_pdf (runtime_answering answer_one_page) request_QUJD = (Returned resp, logs)
    /\ status resp = 200
    /\ success_shape "images_extracted" 1 resp.
Proof.
  eexists _, _. split; [reflexivity |]. split; [reflexivity |].
  destruct (@convert_pdf_success_shape (runtime_answering answer_one_page) request_QUJD
              _ _ eq_refl eq_refl)
    as (d & v & pdf_bytes & markdown_text & images & metadata & Hj & Hd & Hb & Hp & Hshape).
  injection Hp as _ <- _. exact Hshape.
Defined.

(** C6: every POST /generate-embeddings request is answered with HTTP 501,
    [success: false] and the fixed text that points to the OpenAI
    embeddings, whatever its body is, parsed or not; the view reads
    nothing of the request, calls no collaborator and logs nothing. *)
Theorem generate_embeddings_not_implemented `{rt : Runtime} (request : Request) :
  url_map "POST" "/generate-embeddings" = Some generate_embeddings
  /\ generate_embeddings request
     = (Returned (mkResponse
                    (jsonify [("success", PyBool false);
                              ("error", PyStr "Not implemented yet - use OpenAI embeddings for now")])
                    501),
        []).
Proof. split; reflexivity. Qed.

(** C7: every GET /health request is answered with HTTP 200 and the same
    payload, status [healthy] with the service's name and version, for
    every runtime (whatever models were loaded) and after every history of
    exchanges; it leaves the server's log as it was. *)
Theorem health_check_fixed `{rt : Runtime}
    (request : Request) (history : list exchange) (server_log : list log_record) :
  health_check request
  = (Returned (mkResponse
                 (jsonify [("status", PyStr "healthy");
                           ("service", PyStr "python-ml-service");
                           ("version", PyStr "1.0.0")])
                 200),
     [])
  /\ serve server_log (history ++ [("GET", "/health", request)])
     = (fst (serve server_log history)
        ++ [Some (mkResponse
                    (jsonify [("status", PyStr "healthy");
                              ("service", PyStr "python-ml-service");
                              ("version", PyStr "1.0.0")])
                    200)],
        snd (serve server_log history)).
Proof.
  split; [reflexivity |].
  rewrite serve_app. cbn [serve handle]. cbn. rewrite app_nil_r. reflexivity.
Qed.



(** C9: for every POST /convert-pdf request whose body Flask cannot parse,
    the exception of [get_json] is caught by the outer [except]: the
    response is HTTP 500, not 400, with [success: false] and an error text
    that begins with [PDF conversion failed: ]. *)
Theorem convert_pdf_unparseable_body `{rt : Runtime} (request : Request) (e : exn) :
  get_json request = Raised e ->
  exists error : string,
    convert_pdf request
    = (Returned (mkResponse (jsonify [("success", PyBool false); ("error", PyStr error)])
                            500),
       [logger_error (PDF_conversion_error e) true])
    /\ String.prefix "PDF conversion failed: " error = true
    /\ error = "PDF conversion failed: " +:+ exc_str e.
Proof.
  intros Hj. rewrite (convert_pdf_get_json_raised _ _ Hj).
  eexists. split; [reflexivity |]. split; [apply prefix_append | reflexivity].
Qed.

(** Flask's [BadRequest] for a body that is no JSON. *)
Lemma convert_pdf_unparseable_body_witness :
  exists error : string,
    @convert_pdf (runtime_answering answer_one_page)
       (mkRequest (Raised (Exception "BadRequest" "400 Bad Request: Failed to decode JSON object")))
    = (Returned (mkResponse (jsonify [("success", PyBool false); ("error", PyStr error)])
                            500),
       [logger_error
          (PDF_conversion_error
             (Exception "BadRequest" "400 Bad Request: Failed to decode JSON object"))
          true])
    /\ String.prefix "PDF conversion failed: " error = true
    /\ error = "PDF conversion failed: " +:+ "400 Bad Request: Failed to decode JSON object".
Proof.
  apply (@convert_pdf_unparseable_body (runtime_answering answer_one_page)
           (mkRequest (Raised (Exception "BadRequest"
                                 "400 Bad Request: Failed to decode JSON object")))
           (Exception "BadRequest" "400 Bad Request: Failed to decode JSON object")).
  reflexivity.
Defined.

(** C10: two POST /convert-pdf requests whose bodies are objects that
    differ in the member [filename] only (absent, or any value) are
    answered, by the same pipeline, with the same status and body; the
    file name shows in the log record [Converting PDF] and nowhere else. *)
Theorem convert_pdf_filename_only_logged `{rt : Runtime}
    (request1 request2 : Request) (d1 d2 : gmap string pyval) :
  get_json request1 = Returned (PyDict d1) ->
  get_json request2 = Returned (PyDict d2) ->
  delete "filename" d1 = delete "filename" d2 ->
  response_of (convert_pdf request1) = response_of (convert_pdf request2)
  /\ erase_filename <$> log_of (convert_pdf request1)
     = erase_filename <$> log_of (convert_pdf request2).
Proof.
  intros Hj1 Hj2 Hsame.
  assert (Hkey : d1 !! "pdf_base64" = d2 !! "pdf_base64").
  { rewrite <- (lookup_delete_ne d1 "filename" "pdf_base64") by discriminate.
    rewrite <- (lookup_delete_ne d2 "filename" "pdf_base64") by discriminate.
    rewrite Hsame. reflexivity. }
  destruct (d1 !! "pdf_base64") as [v |] eqn:Hd1; symmetry in Hkey.
  - destruct (b64decode v) as [pdf_bytes | e] eqn:Hb.
    + destruct (convert_single_pdf pdf_bytes model_list None None 2)
        as [[[markdown_text images] metadata] | e] eqn:Hp.
      * rewrite (convert_pdf_converted _ _ _ _ _ _ _ Hj1 Hd1 Hb Hp).
        rewrite (convert_pdf_converted _ _ _ _ _ _ _ Hj2 Hkey Hb Hp).
        split; reflexivity.
      * rewrite (convert_pdf_pipeline_raised _ _ _ _ _ Hj1 Hd1 Hb Hp).
        rewrite (convert_pdf_pipeline_raised _ _ _ _ _ Hj2 Hkey Hb Hp).
        split; reflexivity.
    + rewrite (convert_pdf_decode_raised _ _ _ _ Hj1 Hd1 Hb).
      rewrite (convert_pdf_decode_raised _ _ _ _ Hj2 Hkey Hb).
      split; reflexivity.
  - assert (Hmiss : forall d, d !! "pdf_base64" = None ->
                              missing_pdf_base64 (PyDict d) = ret true).
    { intros d Hd. rewrite missing_pdf_base64_dict, Hd.
      rewrite bool_decide_eq_false_2; [reflexivity |].
      intros [x Hx]; discriminate Hx. }
    rewrite (convert_pdf_missing _ _ Hj1 (Hmiss _ Hd1)).
    rewrite (convert_pdf_missing _ _ Hj2 (Hmiss _ Hkey)).
    split; reflexivity.
Qed.

(** The same document without a file name and as [report.pdf]: the same
    response, and logs that differ in the file name. *)
Lemma convert_pdf_filename_only_logged_witness :
  (response_of (@convert_pdf (runtime_answering answer_one_page) request_QUJD)
   = response_of (@convert_pdf (runtime_answering answer_one_page)
                    (mkRequest (Returned (PyDict {[ "pdf_base64" := PyStr "QUJD";
                                                    "filename" := PyStr "report.pdf" ]}))))
   /\ erase_filename <$> log_of (@convert_pdf (runtime_answering answer_one_page) request_QUJD)
      = erase_filename <$> log_of (@convert_pdf (runtime_answering answer_one_page)
                    (mkRequest (Returned (PyDict {[ "pdf_base64" := PyStr "QUJD";
                                                    "filename" := PyStr "report.pdf" ]})))))
  /\ log_of (@convert_pdf (runtime_answering answer_one_page) request_QUJD)
     = [logger_info (Converting_PDF (PyStr "document.pdf") 3);
        logger_info (Conversion_successful 3 (PyInt 1))]
  /\ log_of (@convert_pdf (runtime_answering answer_one_page)
               (mkRequest (Returned (PyDict {[ "pdf_base64" := PyStr "QUJD";
                                               "filename" := PyStr "report.pdf" ]}))))
     = [logger_info (Converting_PDF (PyStr "report.pdf") 3);
        logger_info (Conversion_successful 3 (PyInt 1))].
Proof.
  split; [| split; reflexivity].
  apply (@convert_pdf_filename_only_logged (runtime_answering answer_one_page)
           request_QUJD
           (mkRequest (Returned (PyDict {[ "pdf_base64" := PyStr "QUJD";
                                           "filename" := PyStr "report.pdf" ]})))
           {[ "pdf_base64" := PyStr "QUJD" ]}
           {[ "pdf_base64" := PyStr "QUJD"; "filename" := PyStr "report.pdf" ]});
    reflexivity.
Defined.

(** ** Membership, as [in] decides it *)

Lemma prefix_split (p s : string) :
  String.prefix p s = true -> exists rest, s = p +:+ rest.
Proof.
  revert s. induction p as [| a p IH]; intros s Hp.
  - exists s. reflexivity.
  - destruct s as [| b s]; cbn [String.prefix] in Hp; [discriminate Hp |].
    destruct (Ascii.ascii_dec a b) as [<- | _]; [| discriminate Hp].
    destruct (IH s Hp) as [rest ->]. exists rest. reflexivity.
Qed.

(** [str_contains] decides whether the text occurs somewhere in the other. *)
Lemma str_contains_spec (needle hay : string) :
  str_contains needle hay = true <-> exists before after, hay = before +:+ needle +:+ after.
Proof.
  split.
  - induction hay as [| c hay IH]; cbn [str_contains]; intros H.
    + rewrite orb_false_r in H. destruct (prefix_split _ _ H) as [rest Hrest].
      exists "", rest. exact Hrest.
    + apply orb_true_iff in H. destruct H as [H | H].
      * destruct (prefix_split _ _ H) as [rest Hrest]. exists "", rest. exact Hrest.
      * destruct (IH H) as (before & after & ->).
        exists (String c before), after. reflexivity.
  - intros (before & after & ->). revert after.
    induction before as [| c before IH]; intros after.
    + change ("" +:+ needle +:+ after) with (needle +:+ after).
      destruct (needle +:+ after) eqn:Heq; cbn [str_contains];
        rewrite <- Heq, prefix_append; reflexivity.
    + change (String c before +:+ needle +:+ after)
        with (String c (before +:+ needle +:+ after)).
      cbn [str_contains]. rewrite IH. apply orb_true_r.
Qed.

(** On a list, [in] finds the text if and only if it is an element. *)
Lemma existsb_str_eq_val (k : string) (xs : list pyval) :
  existsb (str_eq_val k) xs = true <-> In (PyStr k) xs.
Proof.
  rewrite existsb_exists. split.
  - intros (x & Hin & Heq). destruct x; try discriminate Heq.
    cbn in Heq. apply String.eqb_eq in Heq. subst. exact Hin.
  - intros Hin. exists (PyStr k). split; [exact Hin |].
    cbn. apply String.eqb_refl.
Qed.

(** ** Bodies that are no objects *)

Section Bodies.
Context `{rt : Runtime}.

(** The guard was passed and the subscript raised: the outer [except]
    answers, and nothing else is logged. *)
Lemma convert_pdf_guard_raised (request : Request) (data : pyval) (e : exn) :
  get_json request = Returned data ->
  missing_pdf_base64 data = (Raised e, []) ->
  convert_pdf request
  = (Returned (conversion_failed_response e), [logger_error (PDF_conversion_error e) true]).
Proof.
  intros Hj Hm. unfold convert_pdf. rewrite Hj. cbn [call bind]. rewrite Hm. reflexivity.
Qed.

Lemma convert_pdf_getitem_raised (request : Request) (data : pyval) (e : exn) :
  get_json request = Returned data ->
  missing_pdf_base64 data = ret false ->
  py_getitem data "pdf_base64" = Raised e ->
  convert_pdf request
  = (Returned (conversion_failed_response e), [logger_error (PDF_conversion_error e) true]).
Proof.
  intros Hj Hm Hg. unfold convert_pdf. rewrite Hj. cbn [call bind]. rewrite Hm.
  cbn. rewrite Hg. reflexivity.
Qed.

End Bodies.

(** ** Every run of [convert_pdf] *)

Section Cases.
Context `{rt : Runtime}.

(** What the guard and the subscript make of a body. *)
Lemma guard_cases (data : pyval) :
  missing_pdf_base64 data = ret true
  \/ (exists e, missing_pdf_base64 data = (Raised e, []))
  \/ (missing_pdf_base64 data = ret false
      /\ ((exists d v, data = PyDict d /\ d !! "pdf_base64" = Some v)
          \/ (exists e, py_getitem data "pdf_base64" = Raised e))).
Proof.
  destruct data as [| b | n | x | s | xs | d].
  - left. reflexivity.
  - destruct b; [right; left; eexists; reflexivity | left; reflexivity].
  - unfold missing_pdf_base64. cbn [truthy].
    destruct (n =? 0); [left; reflexivity | right; left; eexists; reflexivity].
  - destruct x; try (left; reflexivity); right; left; eexists; reflexivity.
  - unfold missing_pdf_base64. cbn [truthy].
    destruct (Nat.eqb (String.length s) 0); [left; reflexivity |]. cbn.
    destruct (str_contains "pdf_base64" s); [| left; reflexivity].
    right; right. split; [reflexivity |]. right. eexists. reflexivity.
  - unfold missing_pdf_base64. cbn [truthy].
    destruct (Nat.eqb (List.length xs) 0); [left; reflexivity |]. cbn.
    destruct (existsb (str_eq_val "pdf_base64") xs); [| left; reflexivity].
    right; right. split; [reflexivity |]. right. eexists. reflexivity.
  - rewrite missing_pdf_base64_dict.
    destruct (d !! "pdf_base64") as [v |] eqn:Hd.
    + right; right. rewrite bool_decide_eq_true_2 by eauto.
      split; [reflexivity |]. left. eauto.
    + left. rewrite bool_decide_eq_false_2; [reflexivity |].
      intros [x Hx]; discriminate Hx.
Qed.

(** The five ways a run ends, each with its response and its log. *)
Lemma convert_pdf_cases (request : Request) :
  convert_pdf request = (Returned missing_field_response, [])
  \/ (exists e,
        convert_pdf request
        = (Returned invalid_base64_response, [logger_error (Base64_decode_error e) false]))
  \/ (exists e,
        convert_pdf request
        = (Returned (conversion_failed_response e),
           [logger_error (PDF_conversion_error e) true]))
  \/ (exists e filename nbytes,
        convert_pdf request
        = (Returned (conversion_failed_response e),
           [logger_info (Converting_PDF filename nbytes);
            logger_error (PDF_conversion_error e) true]))
  \/ (exists markdown_text (images : option (gmap string Image)) metadata filename nbytes,
        convert_pdf request
        = (Returned (converted_response markdown_text images metadata),
           [logger_info (Converting_PDF filename nbytes);
            logger_info (Conversion_successful (String.length markdown_text)
                                               (get_pages metadata))])).
Proof.
  destruct (get_json request) as [data | e] eqn:Hj.
  2:{ right; right; left. exists e. apply convert_pdf_get_json_raised, Hj. }
  destruct (guard_cases data)
    as [Hm | [[e Hm] | [Hm [(d & v & -> & Hd) | [e Hg]]]]].
  - left. apply (convert_pdf_missing _ _ Hj Hm).
  - right; right; left. exists e. apply (convert_pdf_guard_raised _ _ _ Hj Hm).
  - destruct (b64decode v) as [pdf_bytes | e] eqn:Hb.
    2:{ right; left. exists e. apply (convert_pdf_decode_raised _ _ _ _ Hj Hd Hb). }
    destruct (convert_single_pdf pdf_bytes model_list None None 2)
      as [[[markdown_text images] metadata] | e] eqn:Hp.
    + do 4 right. eexists _, _, _, _, _.
      apply (convert_pdf_converted _ _ _ _ _ _ _ Hj Hd Hb Hp).
    + do 3 right; left. eexists _, _, _.
      apply (convert_pdf_pipeline_raised _ _ _ _ _ Hj Hd Hb Hp).
  - right; right; left. exists e. apply (convert_pdf_getitem_raised _ _ _ Hj Hm Hg).
Qed.

End Cases.

(** ** Further properties of [convert_pdf] *)

(** X1: every response [convert_pdf] gives has status 200, 400 or 500.
    The member [success] of its body is true exactly in a 200, whose body
    has no member [error]; the body of a 400 or 500 is [{success: false,
    error: text}] and nothing more. *)
Theorem convert_pdf_envelope `{rt : Runtime}
    (request : Request) (resp : Response) (logs : list log_record) :
  convert_pdf request = (Returned resp, logs) ->
  (status resp = 200
   /\ field "success" (body resp) = Some (PyBool true)
   /\ field "error" (body resp) = None)
  \/ ((status resp = 400 \/ status resp = 500)
      /\ exists error : string,
           body resp = jsonify [("success", PyBool false); ("error", PyStr error)]).
Proof.
  intros Hrun.
  destruct (convert_pdf_cases request)
    as [H | [[e H] | [[e H] | [(e & fn & n & H) | (md & im & meta & fn & n & H)]]]];
    rewrite H in Hrun; injection Hrun as <- _.
  - right. split; [left; reflexivity | eexists; reflexivity].
  - right. split; [left; reflexivity | eexists; reflexivity].
  - right. split; [right; reflexivity | eexists; reflexivity].
  - right. split; [right; reflexivity | eexists; reflexivity].
  - left. split; [reflexivity |]. split; reflexivity.
Qed.

(** The body [[]], answered with the 400 of the missing field. *)
Lemma convert_pdf_envelope_witness :
  exists resp logs,
    @convert_pdf (python_runtime answer_one_page) (mkRequest (Returned (PyList [])))
    = (Returned resp, logs)
    /\ ((status resp = 200
         /\ field "success" (body resp) = Some (PyBool true)
         /\ field "error" (body resp) = None)
        \/ ((status resp = 400 \/ status resp = 500)
            /\ exists error : string,
                 body resp = jsonify [("success", PyBool false); ("error", PyStr error)])).
Proof.
  eexists _, _. split; [reflexivity |].
  eapply (@convert_pdf_envelope (python_runtime answer_one_page)
            (mkRequest (Returned (PyList [])))).
  reflexivity.
Defined.

(** X2: a body that is a JSON array is never converted.  When no element
    of it is the text [pdf_base64] the guard answers the 400 of the missing
    field; when one is, the guard lets it pass, the subscript raises a
    [TypeError] and the answer is the 500 with that error's text. *)
Theorem convert_pdf_array_body `{rt : Runtime} (request : Request) (xs : list pyval) :
  get_json request = Returned (PyList xs) ->
  (~ In (PyStr "pdf_base64") xs ->
   convert_pdf request = (Returned missing_field_response, []))
  /\ (In (PyStr "pdf_base64") xs ->
      exists e,
        py_getitem (PyList xs) "pdf_base64" = Raised e
        /\ exc_class e = "TypeError"
        /\ convert_pdf request
           = (Returned (conversion_failed_response e),
              [logger_error (PDF_conversion_error e) true])).
Proof.
  intros Hj. split; intros Hin.
  - apply (convert_pdf_missing _ _ Hj).
    unfold missing_pdf_base64. cbn [truthy].
    destruct (Nat.eqb (List.length xs) 0); [reflexivity |]. cbn.
    destruct (existsb (str_eq_val "pdf_base64") xs) eqn:Hex; [| reflexivity].
    apply existsb_str_eq_val in Hex. contradiction.
  - eexists. split; [reflexivity |]. split; [reflexivity |].
    apply (convert_pdf_getitem_raised _ _ _ Hj); [| reflexivity].
    unfold missing_pdf_base64. cbn [truthy].
    destruct xs as [| x xs]; [destruct Hin |].
    cbn [List.length Nat.eqb negb]. unfold call, bind. cbn [py_in].
    apply existsb_str_eq_val in Hin. rewrite Hin. reflexivity.
Qed.

(** The arrays [[1, 2]] and [["pdf_base64"]]. *)
Lemma convert_pdf_array_body_witness :
  status <$> response_of (@convert_pdf (runtime_answering answer_one_page)
                            (mkRequest (Returned (PyList [PyInt 1; PyInt 2]))))
  = Some 400
  /\ status <$> response_of (@convert_pdf (runtime_answering answer_one_page)
                               (mkRequest (Returned (PyList [PyStr "pdf_base64"]))))
     = Some 500.
Proof.
  split.
  - rewrite (proj1 (@convert_pdf_array_body (runtime_answering answer_one_page)
                      (mkRequest (Returned (PyList [PyInt 1; PyInt 2])))
                      [PyInt 1; PyInt 2] eq_refl)).
    + reflexivity.
    + intros [H | [H | []]]; discriminate H.
  - destruct (proj2 (@convert_pdf_array_body (runtime_answering answer_one_page)
                       (mkRequest (Returned (PyList [PyStr "pdf_base64"])))
                       [PyStr "pdf_base64"] eq_refl))
      as (e & _ & _ & Hrun).
    + left. reflexivity.
    + rewrite Hrun. reflexivity.
Defined.

(** X3: a body that is a JSON text is never converted.  A text in which
    [pdf_base64] does not occur is answered with the 400 of the missing
    field (the empty text too); a text in which it occurs passes the
    guard, the subscript raises a [TypeError] and the answer is the 500. *)
Theorem convert_pdf_text_body `{rt : Runtime} (request : Request) (s : string) :
  get_json request = Returned (PyStr s) ->
  ((~ exists before after, s = before +:+ "pdf_base64" +:+ after) ->
   convert_pdf request = (Returned missing_field_response, []))
  /\ ((exists before after, s = before +:+ "pdf_base64" +:+ after) ->
      exists e,
        py_getitem (PyStr s) "pdf_base64" = Raised e
        /\ exc_class e = "TypeError"
        /\ convert_pdf request
           = (Returned (conversion_failed_response e),
              [logger_error (PDF_conversion_error e) true])).
Proof.
  intros Hj. split; intros Hocc.
  - apply (convert_pdf_missing _ _ Hj).
    unfold missing_pdf_base64. cbn [truthy].
    destruct (Nat.eqb (String.length s) 0); [reflexivity |]. cbn.
    destruct (str_contains "pdf_base64" s) eqn:Hc; [| reflexivity].
    apply str_contains_spec in Hc. contradiction.
  - eexists. split; [reflexivity |]. split; [reflexivity |].
    apply (convert_pdf_getitem_raised _ _ _ Hj); [| reflexivity].
    unfold missing_pdf_base64. cbn [truthy].
    assert (Hlen : Nat.eqb (String.length s) 0 = false).
    { destruct Hocc as (before & after & ->).
      destruct before; reflexivity. }
    rewrite Hlen. cbn [negb]. unfold call, bind. cbn [py_in].
    apply str_contains_spec in Hocc. rewrite Hocc. reflexivity.
Qed.

(** The texts [hello] and [my pdf_base64 is lost]. *)
Lemma convert_pdf_text_body_witness :
  status <$> response_of (@convert_pdf (runtime_answering answer_one_page)
                            (mkRequest (Returned (PyStr "hello"))))
  = Some 400
  /\ status <$> response_of (@convert_pdf (runtime_answering answer_one_page)
                               (mkRequest (Returned (PyStr "my pdf_base64 is lost"))))
     = Some 500.
Proof.
  split.
  - rewrite (proj1 (@convert_pdf_text_body (runtime_answering answer_one_page)
                      (mkRequest (Returned (PyStr "hello"))) "hello" eq_refl)).
    + reflexivity.
    + intros Hocc. apply str_contains_spec in Hocc. discriminate Hocc.
  - destruct (proj2 (@convert_pdf_text_body (runtime_answering answer_one_page)
                       (mkRequest (Returned (PyStr "my pdf_base64 is lost")))
                       "my pdf_base64 is lost" eq_refl))
      as (e & _ & _ & Hrun).
    + exists "my ", " is lost". reflexivity.
    + rewrite Hrun. reflexivity.
Defined.

(** X4: a body that is a JSON number other than zero, or [true], is
    answered with 500, not with the 400 of the missing field: the guard's
    [in] raises a [TypeError], which the outer [except] catches, logs and
    reports. *)
Theorem convert_pdf_scalar_body `{rt : Runtime} (request : Request) (data : pyval) :
  get_json request = Returned data ->
  In (type_name data) ["bool"; "int"; "float"] ->
  truthy data = true ->
  exists e,
    py_in "pdf_base64" data = Raised e
    /\ exc_class e = "TypeError"
    /\ convert_pdf request
       = (Returned (conversion_failed_response e),
          [logger_error (PDF_conversion_error e) true]).
Proof.
  intros Hj Hty Htrue.
  assert (Hin : exists e, py_in "pdf_base64" data = Raised e /\ exc_class e = "TypeError").
  { destruct data; cbn in Hty;
      try (eexists; split; reflexivity);
      destruct Hty as [H | [H | [H | []]]]; discriminate H. }
  destruct Hin as (e & Hin & Hcls). exists e. split; [exact Hin |]. split; [exact Hcls |].
  apply (convert_pdf_guard_raised _ _ _ Hj).
  unfold missing_pdf_base64. rewrite Htrue. cbn [negb]. rewrite Hin. reflexivity.
Qed.

(** The body [42]. *)
Lemma convert_pdf_scalar_body_witness :
  exists e,
    py_in "pdf_base64" (PyInt 42) = Raised e
    /\ exc_class e = "TypeError"
    /\ @convert_pdf (runtime_answering answer_one_page) (mkRequest (Returned (PyInt 42)))
       = (Returned (conversion_failed_response e),
          [logger_error (PDF_conversion_error e) true]).
Proof.
  apply (@convert_pdf_scalar_body (runtime_answering answer_one_page)
           (mkRequest (Returned (PyInt 42))) (PyInt 42)).
  - reflexivity.
  - right. left. reflexivity.
  - reflexivity.
Defined.

(** X5: of an object body, only the member [pdf_base64] reaches the
    response: two requests whose bodies are objects with the same member
    [pdf_base64], or both without it, are answered alike, whatever other
    members the bodies have. *)
Theorem convert_pdf_reads_pdf_base64_only `{rt : Runtime}
    (request1 request2 : Request) (d1 d2 : gmap string pyval) :
  get_json request1 = Returned (PyDict d1) ->
  get_json request2 = Returned (PyDict d2) ->
  d1 !! "pdf_base64" = d2 !! "pdf_base64" ->
  response_of (convert_pdf request1) = response_of (convert_pdf request2).
Proof.
  intros Hj1 Hj2 Hkey.
  destruct (d1 !! "pdf_base64") as [v |] eqn:Hd1; symmetry in Hkey.
  - destruct (b64decode v) as [pdf_bytes | e] eqn:Hb.
    + destruct (convert_single_pdf pdf_bytes model_list None None 2)
        as [[[markdown_text images] metadata] | e] eqn:Hp.
      * rewrite (convert_pdf_converted _ _ _ _ _ _ _ Hj1 Hd1 Hb Hp).
        rewrite (convert_pdf_converted _ _ _ _ _ _ _ Hj2 Hkey Hb Hp). reflexivity.
      * rewrite (convert_pdf_pipeline_raised _ _ _ _ _ Hj1 Hd1 Hb Hp).
        rewrite (convert_pdf_pipeline_raised _ _ _ _ _ Hj2 Hkey Hb Hp). reflexivity.
    + rewrite (convert_pdf_decode_raised _ _ _ _ Hj1 Hd1 Hb).
      rewrite (convert_pdf_decode_raised _ _ _ _ Hj2 Hkey Hb). reflexivity.
  - assert (Hmiss : forall d, d !! "pdf_base64" = None ->
                              missing_pdf_base64 (PyDict d) = ret true).
    { intros d Hd. rewrite missing_pdf_base64_dict, Hd.
      rewrite bool_decide_eq_false_2; [reflexivity |].
      intros [x Hx]; discriminate Hx. }
    rewrite (convert_pdf_missing _ _ Hj1 (Hmiss _ Hd1)).
    rewrite (convert_pdf_missing _ _ Hj2 (Hmiss _ Hkey)). reflexivity.
Qed.

(** The same document alone, and beside the members [pages] and [lang]. *)
Lemma convert_pdf_reads_pdf_base64_only_witness :
  response_of (@convert_pdf (runtime_answering answer_one_page) request_QUJD)
  = response_of (@convert_pdf (runtime_answering answer_one_page)
                   (mkRequest (Returned (PyDict {[ "pdf_base64" := PyStr "QUJD";
                                                   "pages" := PyInt 7;
                                                   "lang" := PyStr "de" ]})))).
Proof.
  apply (@convert_pdf_reads_pdf_base64_only (runtime_answering answer_one_page)
           request_QUJD
           (mkRequest (Returned (PyDict {[ "pdf_base64" := PyStr "QUJD";
                                           "pages" := PyInt 7;
                                           "lang" := PyStr "de" ]})))
           {[ "pdf_base64" := PyStr "QUJD" ]}
           {[ "pdf_base64" := PyStr "QUJD"; "pages" := PyInt 7; "lang" := PyStr "de" ]});
    reflexivity.
Defined.

(** X6: the text a 500 gives away is the text of the exception that was
    logged: whenever [convert_pdf] answers with status 500, the last log
    record is the error record of an exception [e], logged with its
    traceback, and the response is the one made of [str(e)]. *)
Theorem convert_pdf_500_logged `{rt : Runtime}
    (request : Request) (resp : Response) (logs : list log_record) :
  convert_pdf request = (Returned resp, logs) ->
  status resp = 500 ->
  exists e before,
    logs = before ++ [logger_error (PDF_conversion_error e) true]
    /\ resp = conversion_failed_response e
    /\ field "error" (body resp) = Some (PyStr ("PDF conversion failed: " +:+ exc_str e)).
Proof.
  intros Hrun Hst.
  destruct (convert_pdf_cases request)
    as [H | [[e H] | [[e H] | [(e & fn & n & H) | (md & im & meta & fn & n & H)]]]];
    rewrite H in Hrun; injection Hrun as <- <-; try discriminate Hst.
  - exists e, []. split; [reflexivity |]. split; reflexivity.
  - exists e, [logger_info (Converting_PDF fn n)].
    split; [reflexivity |]. split; reflexivity.
Qed.

(** The pipeline runs out of memory. *)
Lemma convert_pdf_500_logged_witness :
  exists resp logs,
    @convert_pdf (runtime_answering answer_failure) request_QUJD = (Returned resp, logs)
    /\ status resp = 500
    /\ exists e before,
         logs = before ++ [logger_error (PDF_conversion_error e) true]
         /\ resp = conversion_failed_response e
         /\ field "error" (body resp)
            = Some (PyStr ("PDF conversion failed: " +:+ exc_str e)).
Proof.
  eexists _, _. split; [reflexivity |]. split; [reflexivity |].
  eapply (@convert_pdf_500_logged (runtime_answering answer_failure) request_QUJD);
    reflexivity.
Defined.

(** X7: a 400 is decided before the document is handed to the pipeline:
    whenever [convert_pdf] answers with status 400, either nothing was
    logged and the response is the one of the missing field, or the one
    record logged is the decoder's error, without a traceback, and the
    response is the one of the invalid encoding.  No record [Converting
    PDF] is in the log. *)
Theorem convert_pdf_400_logged `{rt : Runtime}
    (request : Request) (resp : Response) (logs : list log_record) :
  convert_pdf request = (Returned resp, logs) ->
  status resp = 400 ->
  ((resp = missing_field_response /\ logs = [])
   \/ (resp = invalid_base64_response
       /\ exists e, logs = [logger_error (Base64_decode_error e) false]))
  /\ forall filename nbytes, ~ In (logger_info (Converting_PDF filename nbytes)) logs.
Proof.
  intros Hrun Hst.
  destruct (convert_pdf_cases request)
    as [H | [[e H] | [[e H] | [(e & fn & n & H) | (md & im & meta & fn & n & H)]]]];
    rewrite H in Hrun; injection Hrun as <- <-; try discriminate Hst.
  - split; [left; split; reflexivity |]. intros filename nbytes [].
  - split; [right; split; [reflexivity | eexists; reflexivity] |].
    intros filename nbytes [Heq | []]. discriminate Heq.
Qed.

(** The body [{"pdf_base64": "not-valid-base64!!"}]. *)
Lemma convert_pdf_400_logged_witness :
  exists resp logs,
    @convert_pdf (runtime_answering answer_one_page)
       (mkRequest (Returned (PyDict {[ "pdf_base64" := PyStr "not-valid-base64!!" ]})))
    = (Returned resp, logs)
    /\ status resp = 400
    /\ ((resp = missing_field_response /\ logs = [])
        \/ (resp = invalid_base64_response
            /\ exists e, logs = [logger_error (Base64_decode_error e) false]))
    /\ forall filename nbytes, ~ In (logger_info (Converting_PDF filename nbytes)) logs.
Proof.
  eexists _, _. split; [reflexivity |]. split; [reflexivity |].
  eapply (@convert_pdf_400_logged (runtime_answering answer_one_page)
            (mkRequest (Returned (PyDict {[ "pdf_base64" := PyStr "not-valid-base64!!" ]}))));
    reflexivity.
Defined.

(** X8: the log of a successful conversion agrees with its response:
    whenever [convert_pdf] answers with status 200, the log is the record
    [Converting PDF] followed by the record [Conversion successful], and
    the character count and the page value of that record are the members
    [chars] and [pages] of the response's [metadata]. *)
Theorem convert_pdf_200_logged `{rt : Runtime}
    (request : Request) (resp : Response) (logs : list log_record) :
  convert_pdf request = (Returned resp, logs) ->
  status resp = 200 ->
  exists filename nbytes chars pages response_metadata,
    logs = [logger_info (Converting_PDF filename nbytes);
            logger_info (Conversion_successful chars pages)]
    /\ field "metadata" (body resp) = Some response_metadata
    /\ field "chars" response_metadata = Some (PyInt (Z.of_nat chars))
    /\ field "pages" response_metadata = Some pages.
Proof.
  intros Hrun Hst.
  destruct (convert_pdf_cases request)
    as [H | [[e H] | [[e H] | [(e & fn & n & H) | (md & im & meta & fn & n & H)]]]];
    rewrite H in Hrun; injection Hrun as <- <-; try discriminate Hst.
  eexists fn, n, _, _, _. split; [reflexivity |].
  split; [reflexivity |]. split; reflexivity.
Qed.

(** One page of three characters. *)
Lemma convert_pdf_200_logged_witness :
  exists resp logs,
    @convert_pdf (runtime_answering answer_one_page) request_QUJD = (Returned resp, logs)
    /\ status resp = 200
    /\ exists filename nbytes chars pages response_metadata,
         logs = [logger_info (Converting_PDF filename nbytes);
                 logger_info (Conversion_successful chars pages)]
         /\ field "metadata" (body resp) = Some response_metadata
         /\ field "chars" response_metadata = Some (PyInt (Z.of_nat chars))
         /\ field "pages" response_metadata = Some pages.
Proof.
  eexists _, _. split; [reflexivity |]. split; [reflexivity |].
  eapply (@convert_pdf_200_logged (runtime_answering answer_one_page) request_QUJD);
    reflexivity.
Defined.

(** X9: once the decoder has accepted the value, the first log record is
    [Converting PDF] with the number of decoded bytes and with the member
    [filename] of the body as it is, whatever its type, [null] included;
    the name [document.pdf] stands in only when the body has no such
    member.  This holds whether the pipeline then returns or raises. *)
Theorem convert_pdf_logs_filename `{rt : Runtime}
    (request : Request) (d : gmap string pyval) (v : pyval) (pdf_bytes : list byte) :
  get_json request = Returned (PyDict d) ->
  d !! "pdf_base64" = Some v ->
  b64decode v = Returned pdf_bytes ->
  exists filename rest,
    log_of (convert_pdf request)
    = logger_info (Converting_PDF filename (List.length pdf_bytes)) :: rest
    /\ (forall x, d !! "filename" = Some x -> filename = x)
    /\ (d !! "filename" = None -> filename = PyStr "document.pdf").
Proof.
  intros Hj Hd Hb.
  exists (default (PyStr "document.pdf") (d !! "filename")).
  destruct (convert_single_pdf pdf_bytes model_list None None 2)
    as [[[markdown_text images] metadata] | e] eqn:Hp.
  - rewrite (convert_pdf_converted _ _ _ _ _ _ _ Hj Hd Hb Hp).
    eexists. split; [reflexivity |].
    split; [intros x Hx | intros Hx]; rewrite Hx; reflexivity.
  - rewrite (convert_pdf_pipeline_raised _ _ _ _ _ Hj Hd Hb Hp).
    eexists. split; [reflexivity |].
    split; [intros x Hx | intros Hx]; rewrite Hx; reflexivity.
Qed.

(** The body [{"pdf_base64": "QUJD", "filename": null}]: the log names
    [None], not [document.pdf]. *)
Lemma convert_pdf_logs_filename_witness :
  exists rest,
    log_of (@convert_pdf (runtime_answering answer_one_page)
              (mkRequest (Returned (PyDict {[ "pdf_base64" := PyStr "QUJD";
                                              "filename" := PyNone ]}))))
    = logger_info (Converting_PDF PyNone 3) :: rest.
Proof.
  destruct (@convert_pdf_logs_filename (runtime_answering answer_one_page)
              (mkRequest (Returned (PyDict {[ "pdf_base64" := PyStr "QUJD";
                                              "filename" := PyNone ]})))
              {[ "pdf_base64" := PyStr "QUJD"; "filename" := PyNone ]}
              (PyStr "QUJD") [x41; x42; x43]%byte)
    as (filename & rest & Hlog & Hsome & Hnone); [reflexivity | reflexivity | reflexivity |].
  exists rest. rewrite Hlog. rewrite (Hsome PyNone); reflexivity.
Defined.

(** ** The start-up *)

(** X10: the module calls [app.run] exactly when it is run as the script,
    the models were loaded, and the variable [PORT] is not set or holds a
    text that [int] accepts.  Imported under another name it loads the
    models and starts nothing. *)
Theorem run_module_starts_service {Models : Type} (load_all_models : raises Models)
    (int_of_str : string -> raises Z) (environ : gmap string string) (name : string) :
  (exists model_list run,
     fst (run_module load_all_models int_of_str environ name)
     = Returned (model_list, Some run))
  <-> (name = "__main__"
       /\ (exists model_list, load_all_models = Returned model_list)
       /\ (environ !! "PORT" = None
           \/ exists text p, environ !! "PORT" = Some text /\ int_of_str text = Returned p)).
Proof.
  unfold run_module, port_of_environ. split.
  - intros (model_list & run & Hrun).
    destruct load_all_models as [m | e]; [| discriminate Hrun].
    destruct (String.eqb name "__main__") eqn:Hname; [| discriminate Hrun].
    apply String.eqb_eq in Hname.
    split; [exact Hname |]. split; [eauto |].
    destruct (environ !! "PORT") as [text |]; [| left; reflexivity].
    destruct (int_of_str text) as [p | e] eqn:Hint; [| discriminate Hrun].
    right. eauto.
  - intros (-> & [m ->] & Hport). rewrite String.eqb_refl.
    destruct Hport as [-> | (text & p & -> & ->)]; eauto.
Qed.

(** X11: when the module calls [app.run], the host is [0.0.0.0]; the port
    is 5000 if [PORT] is not set and else the number [int] reads from it;
    [debug] is on exactly when [FLASK_ENV] is the text [development]; and
    the log is the two records of the model loading followed by the record
    [Starting] with that same port. *)
Theorem run_module_app_run {Models : Type} (load_all_models : raises Models)
    (int_of_str : string -> raises Z) (environ : gmap string string) (name : string)
    (model_list : Models) (run : app_run) :
  fst (run_module load_all_models int_of_str environ name)
  = Returned (model_list, Some run) ->
  host run = "0.0.0.0"
  /\ (environ !! "PORT" = None -> port run = 5000)
  /\ (forall text, environ !! "PORT" = Some text -> int_of_str text = Returned (port run))
  /\ (debug run = true <-> environ !! "FLASK_ENV" = Some "development")
  /\ load_all_models = Returned model_list
  /\ snd (run_module load_all_models int_of_str environ name)
     = [Loading_models; Models_loaded; Starting_service (port run)].
Proof.
  unfold run_module, port_of_environ. intros Hrun.
  destruct load_all_models as [m | e]; [| discriminate Hrun].
  destruct (String.eqb name "__main__"); [| discriminate Hrun].
  destruct (environ !! "PORT") as [text |] eqn:Hport.
  - destruct (int_of_str text) as [p | e] eqn:Hint; [| discriminate Hrun].
    cbn in Hrun. injection Hrun as <- <-. cbn.
    split; [reflexivity |]. split; [discriminate |].
    split; [intros t Ht; injection Ht as <-; exact Hint |].
    split; [apply bool_decide_eq_true |]. split; reflexivity.
  - cbn in Hrun. injection Hrun as <- <-. cbn.
    split; [reflexivity |]. split; [reflexivity |].
    split; [discriminate |].
    split; [apply bool_decide_eq_true |]. split; reflexivity.
Qed.

(** The script with [PORT=8080] and [FLASK_ENV=production]. *)
Lemma run_module_app_run_witness :
  exists run,
    fst (run_module (Returned tt) int_of_str_8080
           {[ "PORT" := "8080"; "FLASK_ENV" := "production" ]} "__main__")
    = Returned (tt, Some run)
    /\ host run = "0.0.0.0"
    /\ port run = 8080
    /\ debug run = false
    /\ snd (run_module (Returned tt) int_of_str_8080
              {[ "PORT" := "8080"; "FLASK_ENV" := "production" ]} "__main__")
       = [Loading_models; Models_loaded; Starting_service 8080].
Proof.
  eexists. split; [reflexivity |].
  destruct (@run_module_app_run unit (Returned tt) int_of_str_8080
              {[ "PORT" := "8080"; "FLASK_ENV" := "production" ]} "__main__" tt
              (mk_app_run "0.0.0.0" 8080 false))
    as (Hhost & _ & _ & _ & _ & Hlog); [reflexivity |].
  split; [exact Hhost |]. split; [reflexivity |]. split; [reflexivity |]. exact Hlog.
Defined.

(** X12: the module raises before it starts the service in two cases
    only: [load_all_models] raised, and then [Loading] is the one record
    logged; or the module is the script and [int] raised on the text of
    [PORT], which then is set.  In neither case is the record [Starting]
    in the log: without [PORT] the start-up cannot fail on the port. *)
Theorem run_module_raises {Models : Type} (load_all_models : raises Models)
    (int_of_str : string -> raises Z) (environ : gmap string string) (name : string)
    (e : exn) :
  fst (run_module load_all_models int_of_str environ name) = Raised e ->
  ((load_all_models = Raised e
    /\ snd (run_module load_all_models int_of_str environ name) = [Loading_models])
   \/ (name = "__main__"
       /\ (exists model_list, load_all_models = Returned model_list)
       /\ (exists text, environ !! "PORT" = Some text /\ int_of_str text = Raised e)
       /\ snd (run_module load_all_models int_of_str environ name)
          = [Loading_models; Models_loaded]))
  /\ forall p, ~ In (Starting_service p)
                    (snd (run_module load_all_models int_of_str environ name)).
Proof.
  unfold run_module, port_of_environ. intros Hrun.
  destruct load_all_models as [m | e'].
  - destruct (String.eqb name "__main__") eqn:Hname; [| discriminate Hrun].
    apply String.eqb_eq in Hname.
    destruct (environ !! "PORT") as [text |]; [| discriminate Hrun].
    destruct (int_of_str text) as [p | e'] eqn:Hint; [discriminate Hrun |].
    cbn in Hrun. injection Hrun as ->. cbn. split.
    + right. split; [exact Hname |]. split; [eauto |]. split; [eauto | reflexivity].
    + intros p [H | [H | []]]; discriminate H.
  - cbn in Hrun. injection Hrun as ->. cbn. split.
    + left. split; reflexivity.
    + intros p [H | []]; discriminate H.
Qed.

(** The script with [PORT=http]. *)
Lemma run_module_raises_witness :
  exists e,
    fst (run_module (Returned tt) int_of_str_8080 {[ "PORT" := "http" ]} "__main__")
    = Raised e
    /\ exc_class e = "ValueError"
    /\ snd (run_module (Returned tt) int_of_str_8080 {[ "PORT" := "http" ]} "__main__")
       = [Loading_models; Models_loaded].
Proof.
  eexists. split; [reflexivity |]. split; [reflexivity |].
  destruct (@run_module_raises unit (Returned tt) int_of_str_8080 {[ "PORT" := "http" ]}
              "__main__"
              (Exception "ValueError" "invalid literal for int() with base 10: 'http'"))
    as [[[Hload _] | (_ & _ & _ & Hlog)] _]; [reflexivity | discriminate Hload | exact Hlog].
Defined.
